(** * CRM-Admin-Infra: the deployment description of [AdminInfraStack]

    The repository declares, through the AWS CDK, a web bucket, a CloudFront
    distribution in front of it and a three-stage CodePipeline.  The stack
    classes are straight-line constructor code: every [new X(this, id, props)]
    registers a construct in the enclosing stack and hands back a reference to
    it, later calls ([addToResourcePolicy], [addToRolePolicy],
    [node.addDependency]) mutate the construct behind the reference, and
    [loadEnvFile] may throw.

    The embedding follows that shape.  A stack is a store of construct nodes;
    a reference is the position of the node in the store; the constructor code
    runs in a state-and-exception monad over the store.  The framework's
    constructors are modelled as allocations that record the props they are
    given: a stack here is what the code declares.  What the framework makes
    of a declaration (the resources it derives, the props of a construct that
    it refuses) is outside the model, with one exception: the checks of
    [super(scope, id, props)], which decide whether a stack joins the app at
    all, are a parameter of the entry point. *)

From Stdlib Require Import Ascii String.
From stdpp Require Import base option list strings gmap.

Local Open Scope string_scope.
Local Open Scope list_scope.
Set Warnings "-register-all".

(** ** Strings, tokens and JavaScript values *)

(** The double-quote character, for the shell commands of the build spec. *)
Definition dquote : string := String "034"%char EmptyString.

(** ['echo "msg"'] as the source writes it. *)
Definition echo (msg : string) : string := "echo " +:+ dquote +:+ msg +:+ dquote.

(** References into the store of the enclosing stack. *)
Definition loc := nat.

(** Attributes of a construct that are only known at deployment time. *)
Inductive AttrName :=
  | bucketArn
  | bucketWebsiteUrl
  | distributionId
  | distributionDomainName
  | projectArn
  | cloudFrontOriginAccessIdentityS3CanonicalUserId.

(** A piece of a string: a literal, a deploy-time attribute of a construct of
    this stack, or [this.account]. *)
Inductive Frag :=
  | Lit (s : string)
  | Attr (l : loc) (a : AttrName)
  | ThisAccount.

(** A template literal is the concatenation of its pieces. *)
Definition TString := list Frag.

#[global] Instance AttrName_eq_dec : EqDecision AttrName.
Proof. solve_decision. Defined.
#[global] Instance Frag_eq_dec : EqDecision Frag.
Proof. solve_decision. Defined.

(** The object handed to [BuildSpec.fromObject]: arbitrary nesting of strings,
    arrays and objects; an object keeps its fields in the order written. *)
Inductive JValue :=
  | JStr (s : TString)
  | JArr (items : list JValue)
  | JObj (fields : list (string * JValue)).

Definition jstr (s : string) : JValue := JStr [Lit s].

(** Property access [o.k]; [None] is [undefined]. *)
Fixpoint jfield_in (k : string) (fields : list (string * JValue)) : option JValue :=
  match fields with
  | [] => None
  | (n, v) :: rest => if String.eqb n k then Some v else jfield_in k rest
  end.

Definition jget (k : string) (v : JValue) : option JValue :=
  match v with
  | JObj fields => jfield_in k fields
  | _ => None
  end.

(** Access along a path of keys, [o.k1.k2...]. *)
Fixpoint jpath (ks : list string) (v : JValue) : option JValue :=
  match ks with
  | [] => Some v
  | k :: ks' => match jget k v with Some v' => jpath ks' v' | None => None end
  end.

(** ** The state-and-exception monad of constructor code *)

Inductive Error := JsError (message : string).

Inductive Outcome (S A : Type) :=
  | Ok (a : A) (s : S)
  | Throw (e : Error) (s : S).
Arguments Ok {S A} a s.
Arguments Throw {S A} e s.

Definition M (S A : Type) : Type := S → Outcome S A.

#[global] Instance M_ret {S} : MRet (M S) := λ A a s, Ok a s.
#[global] Instance M_bind {S} : MBind (M S) := λ A B f m s,
  match m s with
  | Ok a s' => f a s'
  | Throw e s' => Throw e s'
  end.

Definition throw {S A} (e : Error) : M S A := λ s, Throw e s.
Definition modify {S} (f : S → S) : M S unit := λ s, Ok tt (f s).

(** [Array.prototype.forEach] with a callback that may throw. *)
Fixpoint forEach {S A} (f : A → M S unit) (l : list A) : M S unit :=
  match l with
  | [] => mret tt
  | x :: rest => _ ← f x; forEach f rest
  end.

Definition final_state {S A} (o : Outcome S A) : S :=
  match o with Ok _ s => s | Throw _ s => s end.

(** ** The framework's value objects *)

Inductive RemovalPolicy := DESTROY | RETAIN | SNAPSHOT.
Inductive BlockPublicAccess := BLOCK_ALL | BLOCK_ACLS.
Inductive BucketAccessControl :=
  | PRIVATE | PUBLIC_READ | AUTHENTICATED_READ | BUCKET_OWNER_READ
  | BUCKET_OWNER_FULL_CONTROL.
Inductive BucketEncryption := UNENCRYPTED | KMS_MANAGED | S3_MANAGED | KMS.
Inductive ViewerProtocolPolicy := HTTPS_ONLY | REDIRECT_TO_HTTPS | ALLOW_ALL.
Inductive PriceClass := PRICE_CLASS_100 | PRICE_CLASS_200 | PRICE_CLASS_ALL.
Inductive LinuxBuildImage := AMAZON_LINUX_2_5 | STANDARD_5_0 | STANDARD_7_0.

(** [Duration.seconds(n)]. *)
Inductive Duration := seconds (n : N).

(** [SecretValue.secretsManager(secretId)]. *)
Inductive SecretValue := secretsManager (secretId : string).

(** IAM principals.  The source only builds [CanonicalUserPrincipal]s;
    [AnyPrincipal] is the principal to which the framework grants
    [s3:GetObject] on a bucket declared with [publicReadAccess: true]. *)
Inductive Principal :=
  | CanonicalUserPrincipal (canonicalUserId : TString)
  | AnyPrincipal.

#[global] Instance Principal_eq_dec : EqDecision Principal.
Proof. solve_decision. Defined.

Record PolicyStatement := {
  actions : list string;
  resources : list TString;
  principals : list Principal;
}.

(** An [Artifact] is an object without content of its own: only its identity
    matters, which is the order of its creation within the stack. *)
Definition Artifact := nat.

Record BucketProps := {
  websiteIndexDocument : string;
  websiteErrorDocument : string;
  publicReadAccess : bool;
  removalPolicy : RemovalPolicy;
  blockPublicAccess : BlockPublicAccess;
  accessControl : BucketAccessControl;
  encryption : BucketEncryption;
}.

Record ErrorResponse := {
  httpStatus : N;
  responseHttpStatus : N;
  responsePagePath : string;
  ttl : Duration;
}.

(** The arguments of [new S3Origin(bucket, { originAccessIdentity })], as the
    code passes them.  What kind of origin the framework builds from them is
    outside the model: for a bucket that is configured as a website it builds
    an HTTP origin on the website endpoint, which makes no use of the
    identity. *)
Record S3Origin := {
  origin_bucket : loc;
  originAccessIdentity : loc;
}.

Record BehaviorOptions := {
  origin : S3Origin;
  viewerProtocolPolicy : ViewerProtocolPolicy;
}.

Record DistributionProps := {
  defaultBehavior : BehaviorOptions;
  defaultRootObject : string;
  errorResponses : list ErrorResponse;
  priceClass : PriceClass;
}.

(** The value of one build environment variable, [{ value: string }]. *)
Record BuildEnvironmentVariable := { value : string }.

Record BuildEnvironment := {
  buildImage : LinuxBuildImage;
  environmentVariables : option (gmap string BuildEnvironmentVariable);
}.

Record ProjectProps := {
  buildSpec : JValue;
  environment : BuildEnvironment;
}.

Record GitHubSourceAction := {
  gh_actionName : string;
  owner : string;
  repo : string;
  gh_branch : string;
  oauthToken : SecretValue;
  output : Artifact;
}.

Record CodeBuildAction := {
  cb_actionName : string;
  project : loc;
  cb_input : Artifact;
  outputs : list Artifact;
}.

Record S3DeployAction := {
  s3_actionName : string;
  s3_input : Artifact;
  bucket : loc;
}.

Inductive Action :=
  | SourceAction (a : GitHubSourceAction)
  | BuildAction (a : CodeBuildAction)
  | DeployAction (a : S3DeployAction).

Record StageProps := {
  stageName : string;
  stage_actions : list Action;
}.

Record PipelineProps := {
  pl_pipelineName : string;
  artifactBucket : option loc;
  stages : list StageProps;
}.

Record CfnOutputProps := {
  out_value : TString;
  out_description : string;
}.

(** ** Constructs and the store of a stack *)

(** A construct registered in a stack, with its construct id, the props it was
    built from and whatever later calls added to it. *)
Inductive Node :=
  | NBucket (id : string) (props : BucketProps) (resourcePolicy : list PolicyStatement)
  | NImportedBucket (id : string) (bucketName : string)
  | NOriginAccessIdentity (id : string)
  | NDistribution (id : string) (props : DistributionProps)
  | NProject (id : string) (props : ProjectProps) (rolePolicy : list PolicyStatement)
  | NPipeline (id : string) (props : PipelineProps) (dependencies : list loc)
  | NCfnOutput (id : string) (props : CfnOutputProps).

Record StackSt := {
  nodes : list Node;
  artifacts : nat;
}.

Definition empty_stack : StackSt := {| nodes := []; artifacts := 0 |}.

(** [new X(this, id, props)]: the construct is appended to the stack and the
    reference to it is returned. *)
Definition new_node (n : Node) : M StackSt loc := λ s,
  Ok (length (nodes s)) {| nodes := nodes s ++ [n]; artifacts := artifacts s |}.

(** [new Artifact()]. *)
Definition new_Artifact : M StackSt Artifact := λ s,
  Ok (artifacts s) {| nodes := nodes s; artifacts := S (artifacts s) |}.

(** In-place update of the construct behind a reference. *)
Definition update_node (l : loc) (f : Node → Node) : M StackSt unit :=
  modify (λ s, {| nodes := alter f l (nodes s); artifacts := artifacts s |}).

(** [bucket.addToResourcePolicy(statement)]. *)
Definition addToResourcePolicy (b : loc) (st : PolicyStatement) : M StackSt unit :=
  update_node b (λ n,
    match n with
    | NBucket id props policy => NBucket id props (policy ++ [st])
    | other => other
    end).

(** [project.addToRolePolicy(statement)]. *)
Definition addToRolePolicy (p : loc) (st : PolicyStatement) : M StackSt unit :=
  update_node p (λ n,
    match n with
    | NProject id props policy => NProject id props (policy ++ [st])
    | other => other
    end).

(** [construct.node.addDependency(...deps)]. *)
Definition addDependency (p : loc) (deps : list loc) : M StackSt unit :=
  update_node p (λ n,
    match n with
    | NPipeline id props ds => NPipeline id props (ds ++ deps)
    | other => other
    end).

(** [bucket.arnForObjects(keyPattern)]. *)
Definition arnForObjects (b : loc) (keyPattern : string) : TString :=
  [Attr b bucketArn; Lit ("/" +:+ keyPattern)].

(** ** Stack configuration *)

(** [AdminInfraStackProps] (named [ReactDeploymentCICDStackProps] in the second
    version, with the same fields), together with the [description] it
    inherits from [StackProps]. *)
Record AdminInfraStackProps := {
  description : option string;
  environmentType : string;
  branch : string;
  pipelineName : string;
  bucketName : string;
  pipelineBucket : string;
  publicAccess : bool;
  indexFile : string;
  errorFile : string;
  githubRepoOwner : string;
  githubRepoName : string;
  githubAccessToken : string;
}.

(** ** The settings file *)

(** [dotenv.DotenvParseOutput]: an object used as a map from names to values. *)
Abbreviation DotenvParseOutput := (gmap string string).

(** [dotenv.DotenvConfigOutput]: what [dotenv.config] reports after reading the
    settings file. *)
Record DotenvConfigOutput := {
  error : option Error;
  parsed : option DotenvParseOutput;
}.

(** [Object.keys(env)]. *)
Definition Object_keys (env : DotenvParseOutput) : list string :=
  (map_to_list env).*1.

(** The callback of the reduction,
    [(acc, key) => { acc[key] = { value: env[key] }; return acc; }]. *)
Definition reducer (env : DotenvParseOutput)
    (acc : gmap string BuildEnvironmentVariable) (key : string)
  : gmap string BuildEnvironmentVariable :=
  <[key := {| value := env !!! key |}]> acc.

(** [keys.reduce(reducer, {})], for an enumeration [keys] of the keys. *)
Definition convertEnvVariables_over (keys : list string) (env : DotenvParseOutput)
  : gmap string BuildEnvironmentVariable :=
  foldl (reducer env) ∅ keys.

Definition convertEnvVariables (env : DotenvParseOutput)
  : gmap string BuildEnvironmentVariable :=
  convertEnvVariables_over (Object_keys env) env.

(** [loadEnvFile()], as a function of [result], the answer of
    [dotenv.config({ path: envFilePath })]. *)
Definition loadEnvFile (result : DotenvConfigOutput)
  : Error + gmap string BuildEnvironmentVariable :=
  match error result with
  | Some e => inl e
  | None =>
      match parsed result with
      | None => inl (JsError "Failed to load environment variables from .env file")
      | Some env => inr (convertEnvVariables env)
      end
  end.

(** A function that returns or throws, run inside constructor code. *)
Definition liftE {S A} (r : Error + A) : M S A :=
  match r with inl e => throw e | inr a => mret a end.

(** ** First version of the stack (the one that reads the settings file) *)

Module CrmAdmin.

Definition _createWebBucket (props : AdminInfraStackProps) : M StackSt loc :=
  new_node (NBucket (bucketName props)
    {| websiteIndexDocument := indexFile props;
       websiteErrorDocument := errorFile props;
       publicReadAccess := publicAccess props;
       removalPolicy := DESTROY;
       blockPublicAccess := BLOCK_ACLS;
       accessControl := BUCKET_OWNER_FULL_CONTROL;
       encryption := S3_MANAGED |} []).

Definition _createCloudFrontDistribution (bucket : loc) : M StackSt loc :=
  oai ← new_node (NOriginAccessIdentity "OAI");
  _ ← addToResourcePolicy bucket
        {| actions := ["s3:GetObject"];
           resources := [arnForObjects bucket "*"];
           principals :=
             [CanonicalUserPrincipal
                [Attr oai cloudFrontOriginAccessIdentityS3CanonicalUserId]] |};
  let s3Origin := {| origin_bucket := bucket; originAccessIdentity := oai |} in
  new_node (NDistribution "crm-admin-deployment-distribution"
    {| defaultBehavior :=
         {| origin := s3Origin; viewerProtocolPolicy := REDIRECT_TO_HTTPS |};
       defaultRootObject := "index.html";
       errorResponses :=
         [ {| httpStatus := 404; responseHttpStatus := 404;
              responsePagePath := "/index.html"; ttl := seconds 300 |};
           {| httpStatus := 403; responseHttpStatus := 500;
              responsePagePath := "/index.html"; ttl := seconds 300 |} ];
       priceClass := PRICE_CLASS_100 |}).

Definition _createSourceAction (props : AdminInfraStackProps)
  : M StackSt (Artifact * GitHubSourceAction) :=
  sourceOutput ← new_Artifact;
  let sourceAction :=
    {| gh_actionName := "GitHub";
       owner := githubRepoOwner props;
       repo := githubRepoName props;
       gh_branch := branch props;
       oauthToken := secretsManager (githubAccessToken props);
       output := sourceOutput |} in
  mret (sourceOutput, sourceAction).

Definition buildSpecObject (distribution : loc) : JValue :=
  JObj [
    ("version", jstr "0.2");
    ("phases", JObj [
      ("install", JObj [
        ("runtime-versions", JObj [("nodejs", jstr "latest")]);
        ("commands", JArr [jstr (echo "installing npm dependencies");
                           jstr "npm install"])]);
      ("build", JObj [
        ("commands", JArr [jstr (echo "building app"); jstr "npm run build"])]);
      ("post_build", JObj [
        ("commands", JArr [
           jstr (echo "creating cloudfront invalidation");
           JStr [Lit "aws cloudfront create-invalidation --distribution-id ";
                 Attr distribution distributionId;
                 Lit " --paths '/*'"]])])]);
    ("artifacts", JObj [
      ("base-directory", jstr "dist");
      ("files", JArr [jstr "**/*"])])].

Definition _createBuildProject (dotenv_config : DotenvConfigOutput)
    (distribution : loc) : M StackSt (Artifact * loc) :=
  envVarianbles ← liftE (loadEnvFile dotenv_config);
  buildOutput ← new_Artifact;
  buildProject ← new_node (NProject "crm-admin-codebuild-project"
    {| buildSpec := buildSpecObject distribution;
       environment :=
         {| buildImage := AMAZON_LINUX_2_5;
            environmentVariables := Some envVarianbles |} |} []);
  _ ← addToRolePolicy buildProject
        {| actions := ["cloudfront:CreateInvalidation"];
           resources :=
             [[Lit "arn:aws:cloudfront::"; ThisAccount; Lit ":distribution/";
               Attr distribution distributionId]];
           principals := [] |};
  _ ← addToRolePolicy buildProject
        {| actions := ["codebuild:StartBuild"; "codebuild:BatchGetBuilds"];
           resources := [[Attr buildProject projectArn]];
           principals := [] |};
  mret (buildOutput, buildProject).

Definition _createBuildAction (buildProject : loc)
    (sourceOutput buildOutput : Artifact) : CodeBuildAction :=
  {| cb_actionName := "CodeBuild";
     project := buildProject;
     cb_input := sourceOutput;
     outputs := [buildOutput] |}.

Definition _createDeployAction (buildOutput : Artifact) (bucket : loc)
  : S3DeployAction :=
  {| s3_actionName := "DeployToS3"; s3_input := buildOutput; bucket := bucket |}.

Definition _createPipeline (deployAction : S3DeployAction)
    (sourceAction : GitHubSourceAction) (buildAction : CodeBuildAction)
    (props : AdminInfraStackProps) (bucket distribution : loc) : M StackSt unit :=
  let stages :=
    [ {| stageName := "Source"; stage_actions := [SourceAction sourceAction] |};
      {| stageName := "Build"; stage_actions := [BuildAction buildAction] |};
      {| stageName := "Deploy"; stage_actions := [DeployAction deployAction] |} ] in
  codePipeline ← new_node (NPipeline "codepipeline"
    {| pl_pipelineName := pipelineName props;
       artifactBucket := None;
       stages := stages |} []);
  addDependency codePipeline [bucket; distribution].

Definition _outCloudfrontURL (distribution : loc) : M StackSt unit :=
  _ ← new_node (NCfnOutput "cloudfront-web-url"
    {| out_value := [Attr distribution distributionDomainName];
       out_description := "cloudfront website url" |});
  mret tt.

Definition _outS3BucketURL (bucket : loc) : M StackSt unit :=
  _ ← new_node (NCfnOutput "s3-bucket-web-url"
    {| out_value := [Attr bucket bucketWebsiteUrl];
       out_description := "s3 bucket website url" |});
  mret tt.

(** The body of the constructor, after [super(scope, id, props)]. *)
Definition constructor (dotenv_config : DotenvConfigOutput)
    (props : AdminInfraStackProps) : M StackSt unit :=
  webBucket ← _createWebBucket props;
  distribution ← _createCloudFrontDistribution webBucket;
  '(sourceOutput, sourceAction) ← _createSourceAction props;
  '(buildOutput, buildProject) ← _createBuildProject dotenv_config distribution;
  let buildAction := _createBuildAction buildProject sourceOutput buildOutput in
  let deployAction := _createDeployAction buildOutput webBucket in
  _ ← _createPipeline deployAction sourceAction buildAction props
        webBucket distribution;
  _ ← _outCloudfrontURL distribution;
  _outS3BucketURL webBucket.

End CrmAdmin.

(** ** Second version of the stack *)

Module ReactDeployment.

Definition _createWebBucket (props : AdminInfraStackProps) : M StackSt loc :=
  new_node (NBucket (bucketName props)
    {| websiteIndexDocument := indexFile props;
       websiteErrorDocument := errorFile props;
       publicReadAccess := publicAccess props;
       removalPolicy := DESTROY;
       blockPublicAccess := BLOCK_ACLS;
       accessControl := BUCKET_OWNER_FULL_CONTROL;
       encryption := S3_MANAGED |} []).

Definition _createCloudFrontDistribution (bucket : loc) : M StackSt loc :=
  oai ← new_node (NOriginAccessIdentity "OAI");
  _ ← addToResourcePolicy bucket
        {| actions := ["s3:GetObject"];
           resources := [arnForObjects bucket "*"];
           principals :=
             [CanonicalUserPrincipal
                [Attr oai cloudFrontOriginAccessIdentityS3CanonicalUserId]] |};
  let s3origin := {| origin_bucket := bucket; originAccessIdentity := oai |} in
  new_node (NDistribution "react-deployment-distribution"
    {| defaultBehavior :=
         {| origin := s3origin; viewerProtocolPolicy := REDIRECT_TO_HTTPS |};
       defaultRootObject := "index.html";
       errorResponses :=
         [ {| httpStatus := 404; responseHttpStatus := 404;
              responsePagePath := "/index.html"; ttl := seconds 300 |};
           {| httpStatus := 403; responseHttpStatus := 500;
              responsePagePath := "/index.html"; ttl := seconds 300 |} ];
       priceClass := PRICE_CLASS_100 |}).

Definition _createSourceAction (props : AdminInfraStackProps)
  : M StackSt (Artifact * GitHubSourceAction) :=
  sourceOutput ← new_Artifact;
  let sourceAction :=
    {| gh_actionName := "GitHub_Source";
       owner := githubRepoOwner props;
       repo := githubRepoName props;
       gh_branch := branch props;
       oauthToken := secretsManager (githubAccessToken props);
       output := sourceOutput |} in
  mret (sourceOutput, sourceAction).

(** The key [arfifacts] and its place inside [phases] are the source's. *)
Definition buildSpecObject (distribution : loc) : JValue :=
  JObj [
    ("version", jstr "0.2");
    ("phases", JObj [
      ("install", JObj [
        ("commands", JArr [jstr (echo "installing npm dependencies");
                           jstr "npm install"])]);
      ("build", JObj [
        ("commands", JArr [jstr (echo "building react app");
                           jstr "npm run build"])]);
      ("post_build", JObj [
        ("commands", JArr [
           jstr (echo "creating cloudfront invalidation");
           JStr [Lit "aws cloudfront create-invalidation --distribution-id ";
                 Attr distribution distributionId;
                 Lit " --paths '/*'"]])]);
      ("arfifacts", JObj [
        ("base-directory", jstr "dist");
        ("files", JArr [jstr "**/*"])])])].

Definition _createBuildProject (distribution : loc) : M StackSt (Artifact * loc) :=
  buildOutput ← new_Artifact;
  buildProject ← new_node (NProject "react-code-build-project"
    {| buildSpec := buildSpecObject distribution;
       environment :=
         {| buildImage := STANDARD_5_0; environmentVariables := None |} |} []);
  _ ← addToRolePolicy buildProject
        {| actions := ["codebuild:StartBuild"; "codebuild:BatchGetBuilds"];
           resources := [[Attr buildProject projectArn]];
           principals := [] |};
  mret (buildOutput, buildProject).

Definition _createBuildAction (buildProject : loc)
    (sourceOutput buildOutput : Artifact) : CodeBuildAction :=
  {| cb_actionName := "CodeBuild";
     project := buildProject;
     cb_input := sourceOutput;
     outputs := [buildOutput] |}.

Definition _createDeployAction (buildOutput : Artifact) (bucket : loc)
  : S3DeployAction :=
  {| s3_actionName := "DeploytToS3"; s3_input := buildOutput; bucket := bucket |}.

Definition _createPipeline (deployAction : S3DeployAction)
    (sourceAction : GitHubSourceAction) (buildAction : CodeBuildAction)
    (props : AdminInfraStackProps) (bucket distribution : loc) : M StackSt unit :=
  getPipelineBucket ← new_node
    (NImportedBucket "pipeline-existing-artifact-bucket" (pipelineBucket props));
  let stages :=
    [ {| stageName := "Source"; stage_actions := [SourceAction sourceAction] |};
      {| stageName := "Build"; stage_actions := [BuildAction buildAction] |};
      {| stageName := "Deploy"; stage_actions := [DeployAction deployAction] |} ] in
  codePipeline ← new_node (NPipeline "admincodepipeline"
    {| pl_pipelineName := pipelineName props;
       artifactBucket := Some getPipelineBucket;
       stages := stages |} []);
  addDependency codePipeline [bucket; distribution].

Definition _outCloudfrontUrl (distribution : loc) : M StackSt unit :=
  _ ← new_node (NCfnOutput "cloudfront-web-url"
    {| out_value := [Attr distribution distributionDomainName];
       out_description := "cloudfront website url" |});
  mret tt.

Definition _outS3BucketUrl (bucket : loc) : M StackSt unit :=
  _ ← new_node (NCfnOutput "s3-bucket-url"
    {| out_value := [Attr bucket bucketWebsiteUrl];
       out_description := "s3 bucket url" |});
  mret tt.

(** The body of the constructor, after [super(scope, id, props)]. *)
Definition constructor (props : AdminInfraStackProps) : M StackSt unit :=
  webBucket ← _createWebBucket props;
  distribution ← _createCloudFrontDistribution webBucket;
  '(sourceOutput, sourceAction) ← _createSourceAction props;
  '(buildOutput, buildProject) ← _createBuildProject distribution;
  let buildAction := _createBuildAction buildProject sourceOutput buildOutput in
  let deployAction := _createDeployAction buildOutput webBucket in
  _ ← _createPipeline deployAction sourceAction buildAction props
        webBucket distribution;
  _ ← _outCloudfrontUrl distribution;
  _outS3BucketUrl webBucket.

End ReactDeployment.

(** ** The application entry point *)

(** A stack registered in the app by [super(scope, id, props)], with the
    constructs its constructor has added so far. *)
Record StackNode := {
  stack_id : string;
  stack_description : option string;
  stack_constructs : StackSt;
}.

Record AppSt := { app_stacks : list StackNode }.

Definition empty_app : AppSt := {| app_stacks := [] |}.

(** The checks of [super(scope, id, props)], a parameter of the model since
    the framework is not part of the repository.  [super_rejects ids id d] is
    the error, if any, with which the framework refuses a stack with the id
    [id] and the description [d] in an app whose stacks carry the ids [ids]:
    it refuses at least an id that is already taken, and an id or a
    description that is not well formed. *)
Definition SuperCheck := list string → string → option string → option Error.

(** [new AdminInfraStack(app, id, props)] for the class of the first version,
    which is the one [../lib/admin-infra-stack] exports.  [super] runs first
    and may refuse the stack; otherwise the stack joins the app before the
    body runs, and a throw in the body leaves it there as far as the body
    got. *)
Definition new_AdminInfraStack (super_rejects : SuperCheck)
    (dotenv_config : DotenvConfigOutput)
    (id : string) (props : AdminInfraStackProps) : M AppSt unit := λ app,
  let register st :=
    {| app_stacks := app_stacks app ++
         [{| stack_id := id; stack_description := description props;
             stack_constructs := st |}] |} in
  match super_rejects (stack_id <$> app_stacks app) id (description props) with
  | Some e => Throw e app
  | None =>
      match CrmAdmin.constructor dotenv_config props empty_stack with
      | Ok _ st => Ok tt (register st)
      | Throw e st => Throw e (register st)
      end
  end.

(** An entry of [../config] ([devProps], [prodProps]): the stack props together
    with the two fields the entry point reads. *)
Record EnvConfig := {
  isDeploy : bool;
  stackName : string;
  stack_props : AdminInfraStackProps;
}.

(** [{ ...envConfig, description: `CRM Admin Infra Stack for ${...}` }]. *)
Definition with_description (envConfig : EnvConfig) : AdminInfraStackProps :=
  let p := stack_props envConfig in
  {| description := Some ("CRM Admin Infra Stack for " +:+ environmentType p);
     environmentType := environmentType p;
     branch := branch p;
     pipelineName := pipelineName p;
     bucketName := bucketName p;
     pipelineBucket := pipelineBucket p;
     publicAccess := publicAccess p;
     indexFile := indexFile p;
     errorFile := errorFile p;
     githubRepoOwner := githubRepoOwner p;
     githubRepoName := githubRepoName p;
     githubAccessToken := githubAccessToken p |}.

(** The callback of [envConfigs.forEach]. *)
Definition deploy_if_enabled (super_rejects : SuperCheck)
    (dotenv_config : DotenvConfigOutput)
    (envConfig : EnvConfig) : M AppSt unit :=
  if isDeploy envConfig then
    new_AdminInfraStack super_rejects dotenv_config (stackName envConfig)
      (with_description envConfig)
  else mret tt.

(** What running the entry point produces: the synthesized app, or an
    uncaught exception and then no synthesis at all. *)
Inductive Run :=
  | Synthesized (assembly : AppSt)
  | Uncaught (e : Error).

Definition main (super_rejects : SuperCheck)
    (dotenv_config : DotenvConfigOutput)
    (devProps prodProps : EnvConfig) : Run :=
  let envConfigs := [devProps; prodProps] in
  match forEach (deploy_if_enabled super_rejects dotenv_config) envConfigs
                empty_app with
  | Ok _ app => Synthesized app
  | Throw e _ => Uncaught e
  end.

(** ** Reading a deployment description *)

(** The settings file was read and parsed to [env]. *)
Definition settings_loaded (env : DotenvParseOutput) : DotenvConfigOutput :=
  {| error := None; parsed := Some env |}.

(** The stack as the constructors leave it, whether they return or throw. *)
Definition crm_admin_stack (dotenv_config : DotenvConfigOutput)
    (props : AdminInfraStackProps) : StackSt :=
  final_state (CrmAdmin.constructor dotenv_config props empty_stack).

Definition react_deployment_stack (props : AdminInfraStackProps) : StackSt :=
  final_state (ReactDeployment.constructor props empty_stack).

Definition distributions_of (st : StackSt) : list (loc * DistributionProps) :=
  omap (λ '(l, n), match n with NDistribution _ p => Some (l, p) | _ => None end)
       (imap pair (nodes st)).

Definition buckets_of (st : StackSt)
  : list (loc * BucketProps * list PolicyStatement) :=
  omap (λ '(l, n), match n with NBucket _ p pol => Some (l, p, pol) | _ => None end)
       (imap pair (nodes st)).

Definition projects_of (st : StackSt)
  : list (loc * ProjectProps * list PolicyStatement) :=
  omap (λ '(l, n), match n with NProject _ p pol => Some (l, p, pol) | _ => None end)
       (imap pair (nodes st)).

Definition pipelines_of (st : StackSt) : list (loc * PipelineProps * list loc) :=
  omap (λ '(l, n), match n with NPipeline _ p ds => Some (l, p, ds) | _ => None end)
       (imap pair (nodes st)).

(** The principal of an origin access identity. *)
Definition oai_principal (oai : loc) : Principal :=
  CanonicalUserPrincipal [Attr oai cloudFrontOriginAccessIdentityS3CanonicalUserId].

(** Whether a statement lists [action]. *)
Definition allows (action : string) (st : PolicyStatement) : bool :=
  bool_decide (action ∈ actions st).

(** Who is granted [s3:GetObject] on a bucket as declared: the principals of
    the statements of its resource policy that allow the action, and
    [AnyPrincipal] when the bucket is declared with [publicReadAccess: true],
    for which the framework adds exactly such a grant. *)
Definition object_readers (bprops : BucketProps) (policy : list PolicyStatement)
  : list Principal :=
  (if publicReadAccess bprops then [AnyPrincipal] else []) ++
  flat_map (λ st, if allows "s3:GetObject" st then principals st else [])
           policy.

(** The statements of a policy that allow [action]. *)
Definition statements_allowing (action : string) (policy : list PolicyStatement)
  : list PolicyStatement :=
  List.filter (allows action) policy.

(** The commands of a phase of a build spec. *)
Definition phase_commands (phase : string) (spec : JValue) : option JValue :=
  jpath ["phases"; phase; "commands"] spec.

(** The [aws cloudfront create-invalidation] command of the post-build phase. *)
Definition invalidation_command (distribution : loc) : JValue :=
  JStr [Lit "aws cloudfront create-invalidation --distribution-id ";
        Attr distribution distributionId; Lit " --paths '/*'"].

(** The ARN that the first version writes for a distribution. *)
Definition distribution_arn (distribution : loc) : TString :=
  [Lit "arn:aws:cloudfront::"; ThisAccount; Lit ":distribution/";
   Attr distribution distributionId].

(** Every reference held by a construct points at a construct of the store. *)
Definition action_refs (a : Action) : list loc :=
  match a with
  | SourceAction _ => []
  | BuildAction b => [project b]
  | DeployAction d => [bucket d]
  end.

Definition frag_refs (f : Frag) : list loc :=
  match f with Attr l _ => [l] | _ => [] end.

Definition statement_refs (st : PolicyStatement) : list loc :=
  flat_map (flat_map frag_refs) (resources st) ++
  flat_map (λ p, match p with
                 | CanonicalUserPrincipal u => flat_map frag_refs u
                 | AnyPrincipal => []
                 end) (principals st).

Fixpoint jvalue_refs (v : JValue) : list loc :=
  match v with
  | JStr s => flat_map frag_refs s
  | JArr items => flat_map jvalue_refs items
  | JObj fields =>
      (fix go (fs : list (string * JValue)) : list loc :=
         match fs with
         | [] => []
         | (_, x) :: rest => jvalue_refs x ++ go rest
         end) fields
  end.

Definition node_refs (n : Node) : list loc :=
  match n with
  | NBucket _ _ pol => flat_map statement_refs pol
  | NImportedBucket _ _ => []
  | NOriginAccessIdentity _ => []
  | NDistribution _ p =>
      [origin_bucket (origin (defaultBehavior p));
       originAccessIdentity (origin (defaultBehavior p))]
  | NProject _ p pol => jvalue_refs (buildSpec p) ++ flat_map statement_refs pol
  | NPipeline _ p ds =>
      from_option (λ l, [l]) [] (artifactBucket p) ++
      flat_map (λ s, flat_map action_refs (stage_actions s)) (stages p) ++ ds
  | NCfnOutput _ p => flat_map frag_refs (out_value p)
  end.

Definition references_closed (st : StackSt) : bool :=
  forallb (λ n, forallb (λ l, Nat.ltb l (length (nodes st))) (node_refs n)) (nodes st).

(** ** Comparing the two versions *)

(** Erasure inside a build spec: the fields whose key [drop] selects are
    removed at every depth and [onstr] rewrites every string. *)
Fixpoint jerase (drop : string → bool) (onstr : TString → TString)
    (v : JValue) : JValue :=
  match v with
  | JStr s => JStr (onstr s)
  | JArr items => JArr (map (jerase drop onstr) items)
  | JObj fields =>
      JObj ((fix go (fs : list (string * JValue)) : list (string * JValue) :=
               match fs with
               | [] => []
               | (k, x) :: rest =>
                   if drop k then go rest else (k, jerase drop onstr x) :: go rest
               end) fields)
  end.

(** An [echo] command only prints its text: the text is wording, not
    configuration. *)
Definition blank_echo (s : TString) : TString :=
  match s with
  | [Lit t] => if String.prefix "echo " t then [Lit "echo"] else s
  | _ => s
  end.

Definition anonymize_action (a : Action) : Action :=
  match a with
  | SourceAction g =>
      SourceAction {| gh_actionName := ""; owner := owner g; repo := repo g;
                      gh_branch := gh_branch g; oauthToken := oauthToken g;
                      output := output g |}
  | BuildAction b =>
      BuildAction {| cb_actionName := ""; project := project b;
                     cb_input := cb_input b; outputs := outputs b |}
  | DeployAction d =>
      DeployAction {| s3_actionName := ""; s3_input := s3_input d;
                      bucket := bucket d |}
  end.

Definition anonymize_stage (s : StageProps) : StageProps :=
  {| stageName := stageName s;
     stage_actions := map anonymize_action (stage_actions s) |}.

(** Cosmetic naming: construct ids, action names, the description text of an
    output and the text of [echo] commands. *)
Definition anonymize (n : Node) : Node :=
  match n with
  | NBucket _ p pol => NBucket "" p pol
  | NImportedBucket _ name => NImportedBucket "" name
  | NOriginAccessIdentity _ => NOriginAccessIdentity ""
  | NDistribution _ p => NDistribution "" p
  | NProject _ p pol =>
      NProject ""
        {| buildSpec := jerase (λ _, false) blank_echo (buildSpec p);
           environment := environment p |} pol
  | NPipeline _ p ds =>
      NPipeline ""
        {| pl_pipelineName := pl_pipelineName p;
           artifactBucket := artifactBucket p;
           stages := map anonymize_stage (stages p) |} ds
  | NCfnOutput _ p =>
      NCfnOutput "" {| out_value := out_value p; out_description := "" |}
  end.

(** The three listed differences: the build image, the environment variables
    of the build project, and the artifact bucket of the pipeline. *)
Definition forget_listed (n : Node) : Node :=
  match n with
  | NProject id p pol =>
      NProject id
        {| buildSpec := buildSpec p;
           environment :=
             {| buildImage := AMAZON_LINUX_2_5; environmentVariables := None |} |}
        pol
  | NPipeline id p ds =>
      NPipeline id
        {| pl_pipelineName := pl_pipelineName p;
           artifactBucket := None;
           stages := stages p |} ds
  | other => other
  end.

Definition is_imported_bucket (n : Node) : bool :=
  match n with NImportedBucket _ _ => true | _ => false end.

(** A description up to cosmetic naming and the three listed differences.
    The imported artifact bucket is the last construct anything refers to, so
    taking it out of the store leaves every other reference in place. *)
Definition modulo_listed (st : StackSt) : StackSt :=
  {| nodes := map (λ n, forget_listed (anonymize n))
                  (List.filter (λ n, negb (is_imported_bucket n)) (nodes st));
     artifacts := artifacts st |}.

(** Two further differences, and the artifact declaration: the runtime
    versions of the install phase, the statements of the build role that allow
    [cloudfront:CreateInvalidation], and whatever is declared under
    [artifacts] (or [arfifacts]). *)
Definition forget_further (n : Node) : Node :=
  match n with
  | NProject id p pol =>
      NProject id
        {| buildSpec :=
             jerase (λ k, bool_decide
                       (k ∈ ["runtime-versions"; "artifacts"; "arfifacts"]))
                    (λ s, s) (buildSpec p);
           environment := environment p |}
        (List.filter (λ st, negb (allows "cloudfront:CreateInvalidation" st)) pol)
  | other => other
  end.

Definition modulo_listed_and_further (st : StackSt) : StackSt :=
  {| nodes := map forget_further (nodes (modulo_listed st));
     artifacts := artifacts st |}.

(** ** What the description is expected to satisfy *)

(** Object reads of every bucket of the stack are granted to the principal of
    an origin access identity of the stack and to nobody else. *)
Definition reads_only_through_oai (st : StackSt) : Prop :=
  ∀ b bp pol p,
    (b, bp, pol) ∈ buckets_of st → p ∈ object_readers bp pol →
    ∃ oai id, nodes st !! oai = Some (NOriginAccessIdentity id) ∧ p = oai_principal oai.

(** The stack has one web bucket and one origin access identity, the one that
    the code passes to the [S3Origin] of its one distribution, and the one
    statement that the constructor adds to the resource policy of the bucket
    lets that identity read objects. *)
Definition oai_statement_only (props : AdminInfraStackProps) (st : StackSt) : Prop :=
  ∃ b bp d dp oai,
    buckets_of st = [(b, bp,
      [{| actions := ["s3:GetObject"];
          resources := [arnForObjects b "*"];
          principals := [oai_principal oai] |}])] ∧
    publicReadAccess bp = publicAccess props ∧
    nodes st !! oai = Some (NOriginAccessIdentity "OAI") ∧
    distributions_of st = [(d, dp)] ∧
    origin (defaultBehavior dp) =
      {| origin_bucket := b; originAccessIdentity := oai |}.

(** The distribution answers 404 and 403 with the root document. *)
Definition rewrites_to_root (st : StackSt) : Prop :=
  ∃ d dp,
    distributions_of st = [(d, dp)] ∧
    defaultRootObject dp = "index.html" ∧
    ∀ status : N, status ∈ [404%N; 403%N] →
      ∃ er, er ∈ errorResponses dp ∧ httpStatus er = status ∧
            responsePagePath er = "/" +:+ defaultRootObject dp.

(** The web bucket goes away with the stack. *)
Definition bucket_destroyed_with_stack (st : StackSt) : Prop :=
  ∃ b bp pol, buckets_of st = [(b, bp, pol)] ∧ removalPolicy bp = DESTROY.

(** Source, Build, Deploy, handing the artifacts along and deploying into the
    web bucket. *)
Definition three_stages_wired (st : StackSt) : Prop :=
  ∃ b bp pol l pr rpol p pp deps src bld dep,
    buckets_of st = [(b, bp, pol)] ∧
    projects_of st = [(l, pr, rpol)] ∧
    pipelines_of st = [(p, pp, deps)] ∧
    stages pp =
      [ {| stageName := "Source"; stage_actions := [SourceAction src] |};
        {| stageName := "Build"; stage_actions := [BuildAction bld] |};
        {| stageName := "Deploy"; stage_actions := [DeployAction dep] |} ] ∧
    cb_input bld = output src ∧
    outputs bld = [s3_input dep] ∧
    output src ≠ s3_input dep ∧
    project bld = l ∧
    bucket dep = b.

(** The origin of the distribution is the web bucket, and the pipeline
    declares its dependency on the bucket and on the distribution. *)
Definition dependencies_declared (st : StackSt) : Prop :=
  ∃ b bp pol d dp p pp deps,
    buckets_of st = [(b, bp, pol)] ∧
    distributions_of st = [(d, dp)] ∧
    pipelines_of st = [(p, pp, deps)] ∧
    origin_bucket (origin (defaultBehavior dp)) = b ∧
    b ∈ deps ∧ d ∈ deps ∧
    deps = [b; d].

(** The build role may create invalidations, on the distribution of this
    stack and on nothing else. *)
Definition invalidation_granted_on_own_distribution (st : StackSt) : Prop :=
  ∃ d dp l pr rpol stmt,
    distributions_of st = [(d, dp)] ∧
    projects_of st = [(l, pr, rpol)] ∧
    statements_allowing "cloudfront:CreateInvalidation" rpol = [stmt] ∧
    actions stmt = ["cloudfront:CreateInvalidation"] ∧
    resources stmt = [distribution_arn d].

(** The post-build phase issues an invalidation of the distribution of this
    stack, and no statement of the build role allows it. *)
Definition invalidates_without_grant (st : StackSt) : Prop :=
  ∃ d dp l pr rpol cmds,
    distributions_of st = [(d, dp)] ∧
    projects_of st = [(l, pr, rpol)] ∧
    statements_allowing "cloudfront:CreateInvalidation" rpol = [] ∧
    phase_commands "post_build" (buildSpec pr) = Some (JArr cmds) ∧
    invalidation_command d ∈ cmds.

(** When the callback is through with the configurations, however it ended,
    the app holds a stack under the name of [envConfig]. *)
Definition instantiated (super_rejects : SuperCheck)
    (dotenv_config : DotenvConfigOutput)
    (envConfigs : list EnvConfig) (envConfig : EnvConfig) : Prop :=
  stackName envConfig ∈
  stack_id <$> app_stacks (final_state
    (forEach (deploy_if_enabled super_rejects dotenv_config) envConfigs
             empty_app)).

(** The settings file cannot be loaded: [dotenv] reports an error for it or
    yields no parsed map. *)
Definition settings_unavailable (dotenv_config : DotenvConfigOutput) : Prop :=
  is_Some (error dotenv_config) ∨ parsed dotenv_config = None.

(** The two versions describe the same deployment up to cosmetic naming and
    the three listed differences. *)
Definition same_modulo_listed (s1 s2 : StackSt) : Prop :=
  modulo_listed s1 = modulo_listed s2.

(** The build spec and the role policy of the one build project of a stack. *)
Definition build_spec_of (st : StackSt) : list JValue :=
  (λ x, buildSpec x.1.2) <$> projects_of st.

Definition role_policy_of (st : StackSt) : list (list PolicyStatement) :=
  snd <$> projects_of st.

(** ** Sample configurations *)

Definition sample_dev_props : AdminInfraStackProps :=
  {| description := None;
     environmentType := "dev";
     branch := "develop";
     pipelineName := "crm-admin-dev-pipeline";
     bucketName := "crm-admin-dev-web";
     pipelineBucket := "crm-admin-dev-artifacts";
     publicAccess := true;
     indexFile := "index.html";
     errorFile := "index.html";
     githubRepoOwner := "miguel-merlin";
     githubRepoName := "CRM-Admin";
     githubAccessToken := "github-token" |}.

Definition sample_prod_props : AdminInfraStackProps :=
  {| description := None;
     environmentType := "prod";
     branch := "main";
     pipelineName := "crm-admin-prod-pipeline";
     bucketName := "crm-admin-prod-web";
     pipelineBucket := "crm-admin-prod-artifacts";
     publicAccess := false;
     indexFile := "index.html";
     errorFile := "index.html";
     githubRepoOwner := "miguel-merlin";
     githubRepoName := "CRM-Admin";
     githubAccessToken := "github-token" |}.

Definition sample_dev : EnvConfig :=
  {| isDeploy := true;
     stackName := "CrmAdminDev";
     stack_props := sample_dev_props |}.

Definition sample_prod : EnvConfig :=
  {| isDeploy := false;
     stackName := "CrmAdminProd";
     stack_props := sample_prod_props |}.

Definition sample_dev_disabled : EnvConfig :=
  {| isDeploy := false;
     stackName := "CrmAdminDev";
     stack_props := sample_dev_props |}.

Definition sample_prod_enabled : EnvConfig :=
  {| isDeploy := true;
     stackName := "CrmAdminProd";
     stack_props := sample_prod_props |}.

(** A settings file with two variables. *)
Definition sample_env : DotenvParseOutput :=
  <["VITE_API_URL" := "https://api.example.com"]>
    (<["VITE_STAGE" := "dev"]> ∅).

(** The two versions of the stack for the dev configuration. *)
Definition sample_crm_admin : StackSt :=
  crm_admin_stack (settings_loaded sample_env) sample_dev_props.

Definition sample_react_deployment : StackSt :=
  react_deployment_stack sample_dev_props.

(** A framework that refuses exactly the ids that are already taken. *)
Definition unique_ids : SuperCheck := λ ids id _,
  if bool_decide (id ∈ ids)
  then Some (JsError "There is already a Construct with this name")
  else None.

(** What [dotenv.config] reports when the settings file does not exist. *)
Definition settings_missing : DotenvConfigOutput :=
  {| error := Some (JsError "ENOENT: no such file or directory");
     parsed := None |}.

(** ** Further readings of a description *)

Definition outputs_of (st : StackSt) : list (string * CfnOutputProps) :=
  omap (λ n, match n with NCfnOutput id p => Some (id, p) | _ => None end)
       (nodes st).

(** Every statement that the stack code puts on a bucket or on a build role. *)
Definition policies_of (st : StackSt) : list PolicyStatement :=
  flat_map (λ n, match n with
                 | NBucket _ _ pol => pol
                 | NProject _ _ pol => pol
                 | _ => []
                 end) (nodes st).

(** A resource that names a construct of the stack through one of its
    deploy-time attributes. *)
Definition names_construct (st : StackSt) (resource : TString) : Prop :=
  ∃ l a, Attr l a ∈ resource ∧ is_Some (nodes st !! l).

(** The props with other values in the three fields of the stack props that
    the constructor of the first version does not read. *)
Definition set_unread (d : option string) (envType pipeBucket : string)
    (p : AdminInfraStackProps) : AdminInfraStackProps :=
  {| description := d;
     environmentType := envType;
     branch := branch p;
     pipelineName := pipelineName p;
     bucketName := bucketName p;
     pipelineBucket := pipeBucket;
     publicAccess := publicAccess p;
     indexFile := indexFile p;
     errorFile := errorFile p;
     githubRepoOwner := githubRepoOwner p;
     githubRepoName := githubRepoName p;
     githubAccessToken := githubAccessToken p |}.

(** The stack that the entry point leaves in the app for a configuration. *)
Definition stack_for (dotenv_config : DotenvConfigOutput)
    (envConfig : EnvConfig) : StackNode :=
  {| stack_id := stackName envConfig;
     stack_description :=
       Some ("CRM Admin Infra Stack for " +:+
             environmentType (stack_props envConfig));
     stack_constructs :=
       crm_admin_stack dotenv_config (with_description envConfig) |}.

(** The artifact declaration that both build specs write down. *)
Definition artifacts_declaration : JValue :=
  JObj [("base-directory", jstr "dist"); ("files", JArr [jstr "**/*"])].

(** The keys of an object, in the order written. *)
Definition jkeys (v : JValue) : list string :=
  match v with JObj fields => fields.*1 | _ => [] end.

(** * Properties *)

(** ** The monad and the store *)

(** A fresh construct is found behind the reference that [new] returned, and
    the constructs already in the store stay where they were. *)
Lemma new_node_lookup n s :
  ∃ l s', new_node n s = Ok l s' ∧ nodes s' !! l = Some n ∧
          ∀ l' n', nodes s !! l' = Some n' → nodes s' !! l' = Some n'.
Proof.
  exists (length (nodes s)), {| nodes := nodes s ++ [n]; artifacts := artifacts s |}.
  split; [done|]. simpl. split.
  - by rewrite lookup_app_r, Nat.sub_diag.
  - intros l' n' Hl'. by apply lookup_app_l_Some.
Qed.

(** Two artifacts created one after the other are different objects. *)
Lemma new_Artifact_fresh s :
  ∃ a s', new_Artifact s = Ok a s' ∧ ∀ b s'', new_Artifact s' = Ok b s'' → a ≠ b.
Proof.
  eexists _, _. split; [reflexivity|].
  intros b s'' [= <- _]. simpl. lia.
Qed.

(** An update through a reference never moves a construct. *)
Lemma update_node_length l f s s' :
  update_node l f s = Ok tt s' → length (nodes s') = length (nodes s).
Proof. intros [= <-]. simpl. apply length_alter. Qed.

Lemma forEach_app {S A} (f : A → M S unit) (l1 l2 : list A) s :
  forEach f (l1 ++ l2) s =
  match forEach f l1 s with
  | Ok _ s' => forEach f l2 s'
  | Throw e s' => Throw e s'
  end.
Proof.
  revert s. induction l1 as [|x l1 IH]; intros s; simpl; [done|].
  unfold mbind, M_bind. destruct (f x s) as [[] s'|e s']; [apply IH | done].
Qed.

(** ** The settings-file loader *)

Section convert.
Context (env : DotenvParseOutput).

(** One pass of the reduction: the keys it visits are set from [env], the
    others keep what the accumulator held. *)
Lemma reduce_lookup (keys : list string) acc k :
  foldl (reducer env) acc keys !! k =
  if decide (k ∈ keys) then Some {| value := env !!! k |} else acc !! k.
Proof.
  revert acc. induction keys as [|key keys IH]; intros acc; cbn [foldl].
  - by rewrite decide_False by apply not_elem_of_nil.
  - rewrite IH. unfold reducer.
    destruct (decide (k ∈ keys)) as [Hin|Hnin].
    + rewrite decide_True; [done | by apply elem_of_cons; right].
    + destruct (decide (k = key)) as [->|Hne].
      * rewrite lookup_insert_eq, decide_True; [done | by apply elem_of_cons; left].
      * rewrite lookup_insert_ne by done.
        rewrite decide_False; [done|]. by intros [?|?]%elem_of_cons.
Qed.

Lemma Object_keys_spec k : k ∈ Object_keys env ↔ is_Some (env !! k).
Proof.
  unfold Object_keys. rewrite list_elem_of_fmap. split.
  - intros [[k' v] [-> Hin]]. apply elem_of_map_to_list in Hin. by exists v.
  - intros [v Hv]. exists (k, v). split; [done|]. by apply elem_of_map_to_list.
Qed.

(** The order in which the keys are visited does not matter, as long as
    exactly the keys of [env] are visited. *)
Lemma convertEnvVariables_over_lookup (keys : list string) k :
  (∀ k', k' ∈ keys ↔ is_Some (env !! k')) →
  convertEnvVariables_over keys env !! k = (λ v, {| value := v |}) <$> env !! k.
Proof.
  intros Hkeys. unfold convertEnvVariables_over. rewrite reduce_lookup.
  destruct (decide (k ∈ keys)) as [Hin|Hnin].
  - apply Hkeys in Hin as [v Hv]. by rewrite lookup_total_alt, Hv.
  - rewrite lookup_empty. destruct (env !! k) as [v|] eqn:Hv; [|done].
    exfalso. apply Hnin, Hkeys. by exists v.
Qed.

Lemma convertEnvVariables_lookup k :
  convertEnvVariables env !! k = (λ v, {| value := v |}) <$> env !! k.
Proof. apply convertEnvVariables_over_lookup, Object_keys_spec. Qed.
End convert.

Lemma convertEnvVariables_fmap (env : DotenvParseOutput) :
  convertEnvVariables env = (λ v, {| value := v |}) <$> env.
Proof.
  apply map_eq. intros k. by rewrite convertEnvVariables_lookup, lookup_fmap.
Qed.

(** The loader throws exactly when [dotenv] reports an error or no map. *)
Lemma loadEnvFile_throws_iff dotenv_config :
  (∃ e, loadEnvFile dotenv_config = inl e) ↔
  is_Some (error dotenv_config) ∨ parsed dotenv_config = None.
Proof.
  unfold loadEnvFile. destruct dotenv_config as [[e|] [env|]]; simpl.
  - split; [intros _; left; by eexists | intros _; by eexists].
  - split; [intros _; left; by eexists | intros _; by eexists].
  - split; [by intros [e [=]] | intros [[e [=]]|[=]]].
  - split; [intros _; by right | intros _; by eexists].
Qed.

(** ** Running the constructors *)

(** With the settings loaded the constructor of the first version returns. *)
Lemma crm_admin_returns env props :
  ∃ st, CrmAdmin.constructor (settings_loaded env) props empty_stack = Ok tt st.
Proof. exists (crm_admin_stack (settings_loaded env) props). reflexivity. Qed.

(** The constructor of the second version always returns. *)
Lemma react_deployment_returns props :
  ∃ st, ReactDeployment.constructor props empty_stack = Ok tt st.
Proof. exists (react_deployment_stack props). reflexivity. Qed.

(** When the loader throws, the constructor of the first version throws the
    same error; by then it has created the bucket, the identity and the
    distribution, and neither the build project nor the pipeline. *)
Lemma crm_admin_throws dotenv_config props e :
  loadEnvFile dotenv_config = inl e →
  ∃ st, CrmAdmin.constructor dotenv_config props empty_stack = Throw e st ∧
        length (nodes st) = 3 ∧ projects_of st = [] ∧ pipelines_of st = [].
Proof.
  intros Hload. eexists.
  unfold CrmAdmin.constructor, CrmAdmin._createBuildProject.
  split.
  - cbv -[loadEnvFile]. rewrite Hload. reflexivity.
  - done.
Qed.

(** ** The entry point *)

(** What [new AdminInfraStack] does for a configuration, by the verdict of
    [super] and the outcome of the loader. *)
Lemma new_AdminInfraStack_run super_rejects dotenv_config
    (envConfig : EnvConfig) app :
  new_AdminInfraStack super_rejects dotenv_config (stackName envConfig)
    (with_description envConfig) app =
  match super_rejects (stack_id <$> app_stacks app) (stackName envConfig)
          (description (with_description envConfig)) with
  | Some e => Throw e app
  | None =>
      let app' :=
        {| app_stacks := app_stacks app ++ [stack_for dotenv_config envConfig] |} in
      match loadEnvFile dotenv_config with
      | inr _ => Ok tt app'
      | inl e => Throw e app'
      end
  end.
Proof.
  unfold new_AdminInfraStack, stack_for, crm_admin_stack.
  destruct (super_rejects _ _ _) as [e|]; [done|].
  destruct (loadEnvFile dotenv_config) as [e|vars] eqn:Hload.
  - destruct (crm_admin_throws dotenv_config (with_description envConfig) e Hload)
      as (st & -> & _).
    reflexivity.
  - destruct dotenv_config as [[e|] [env|]]; try discriminate Hload.
    destruct (crm_admin_returns env (with_description envConfig)) as [st Hst].
    fold (settings_loaded env). rewrite Hst. reflexivity.
Qed.

(** With nothing to deploy the callback leaves the app as it is. *)
Lemma forEach_deploy_none super_rejects dotenv_config
    (envConfigs : list EnvConfig) app :
  List.filter isDeploy envConfigs = [] →
  forEach (deploy_if_enabled super_rejects dotenv_config) envConfigs app =
  Ok tt app.
Proof.
  induction envConfigs as [|c cs IH]; simpl; [done|].
  unfold mbind, M_bind, deploy_if_enabled.
  destruct (isDeploy c); [done|]. simpl. apply IH.
Qed.

(** When the callback has returned on every configuration, the app has
    gained the stacks of the configurations to deploy, in order, and the
    loader has returned if there was any. *)
Lemma forEach_deploy_Ok super_rejects dotenv_config
    (envConfigs : list EnvConfig) app app' :
  forEach (deploy_if_enabled super_rejects dotenv_config) envConfigs app =
    Ok tt app' →
  app_stacks app' =
    app_stacks app ++
    (stack_for dotenv_config <$> List.filter isDeploy envConfigs) ∧
  (List.filter isDeploy envConfigs ≠ [] →
   ∃ vars, loadEnvFile dotenv_config = inr vars).
Proof.
  revert app. induction envConfigs as [|c cs IH]; intros app; simpl.
  - intros [= <-]. by rewrite app_nil_r.
  - unfold mbind, M_bind, deploy_if_enabled.
    destruct (isDeploy c) eqn:Hc.
    + rewrite new_AdminInfraStack_run.
      destruct (super_rejects _ _ _) as [e|]; [done|]. simpl.
      destruct (loadEnvFile dotenv_config) as [e|vars] eqn:Hload; [done|].
      intros Hrest. apply IH in Hrest as [-> _]. simpl.
      split; [by rewrite <- app_assoc | by eexists].
    + simpl. apply IH.
Qed.

(** When the loader throws, the callback throws on the first configuration
    to deploy, whether [super] refuses its stack or the body gets as far as
    the loader; no other configuration gets a stack. *)
Lemma forEach_deploy_loader_throws super_rejects dotenv_config e
    (envConfigs : list EnvConfig) app first rest :
  loadEnvFile dotenv_config = inl e →
  List.filter isDeploy envConfigs = first :: rest →
  ∃ e' app',
    forEach (deploy_if_enabled super_rejects dotenv_config) envConfigs app =
      Throw e' app' ∧
    (app_stacks app' = app_stacks app ∨
     app_stacks app' = app_stacks app ++ [stack_for dotenv_config first]).
Proof.
  intros Hload.
  induction envConfigs as [|c cs IH]; simpl; [done|].
  unfold mbind, M_bind, deploy_if_enabled.
  destruct (isDeploy c) eqn:Hc.
  - intros [= <- _]. rewrite new_AdminInfraStack_run, Hload.
    destruct (super_rejects _ _ _) as [e'|]; eexists _, _; eauto.
  - simpl. apply IH.
Qed.

(** ** Who may read the web bucket *)

(** With the policy that the stack writes, nobody but the identity reads the
    bucket exactly when the bucket is not declared publicly readable. *)
Lemma oai_statement_only_readers props st :
  oai_statement_only props st →
  (reads_only_through_oai st ↔ publicAccess props = false).
Proof.
  intros (b & bp & d & dp & oai & Hb & Hpub & Hoai & _ & _).
  unfold reads_only_through_oai. rewrite Hb. split.
  - intros Honly. rewrite <- Hpub.
    destruct (publicReadAccess bp) eqn:Hflag; [exfalso | done].
    assert (∃ o id, nodes st !! o = Some (NOriginAccessIdentity id) ∧
                    AnyPrincipal = oai_principal o) as (o & id & _ & Heq);
      [|discriminate Heq].
    eapply (Honly b bp); [apply list_elem_of_here|].
    unfold object_readers. rewrite Hflag. apply list_elem_of_here.
  - intros Hflag c cp pol p Hin Hp.
    apply list_elem_of_singleton in Hin as [= -> -> ->].
    unfold object_readers in Hp. rewrite Hpub, Hflag in Hp. simpl in Hp.
    apply list_elem_of_singleton in Hp as ->.
    by exists oai, "OAI".
Qed.

Lemma crm_admin_oai_statement_only dotenv_config props :
  oai_statement_only props (crm_admin_stack dotenv_config props).
Proof.
  destruct dotenv_config as [[e|] [env|]]; by eexists _, _, _, _, _.
Qed.

Lemma react_deployment_oai_statement_only props :
  oai_statement_only props (react_deployment_stack props).
Proof. by eexists _, _, _, _, _. Qed.

(** ** The two versions side by side *)

(** Once the imported artifact bucket is taken out and forgotten, nothing in
    the second version refers to a construct at or after its place. *)
Lemma modulo_listed_refs_in_place props :
  forallb (λ n, forallb (λ l, Nat.ltb l 4) (node_refs n))
          (nodes (modulo_listed (react_deployment_stack props))) = true.
Proof. reflexivity. Qed.

(** ** Worked examples *)

Example loadEnvFile_missing :
  loadEnvFile settings_missing = inl (JsError "ENOENT: no such file or directory").
Proof. reflexivity. Qed.

Example convertEnvVariables_sample :
  convertEnvVariables sample_env !! "VITE_STAGE" = Some {| value := "dev" |} ∧
  convertEnvVariables sample_env !! "NODE_ENV" = None.
Proof. by rewrite !convertEnvVariables_lookup. Qed.

(** One configuration to deploy and the settings file in place: one stack. *)
Example main_sample :
  ∃ assembly,
    main unique_ids (settings_loaded sample_env) sample_dev sample_prod =
      Synthesized assembly ∧
    stack_id <$> app_stacks assembly = ["CrmAdminDev"] ∧
    stack_description <$> app_stacks assembly =
      [Some "CRM Admin Infra Stack for dev"].
Proof. eexists. split; [reflexivity|]. split; reflexivity. Qed.

(** The same without the settings file: the run ends with the error. *)
Example main_settings_missing :
  main unique_ids settings_missing sample_dev sample_prod =
  Uncaught (JsError "ENOENT: no such file or directory").
Proof. reflexivity. Qed.

(** Once a constructor has thrown, the configurations after it are not
    reached. *)
Example throw_ends_forEach :
  stack_id <$> app_stacks (final_state
    (forEach (deploy_if_enabled unique_ids settings_missing)
             [sample_dev; sample_prod_enabled] empty_app))
  = ["CrmAdminDev"].
Proof. reflexivity. Qed.

(** Twice the same stack name: the framework refuses the second stack and
    nothing is synthesized, although the settings are in place. *)
Example main_same_name_twice :
  main unique_ids (settings_loaded sample_env) sample_dev sample_dev =
  Uncaught (JsError "There is already a Construct with this name").
Proof. reflexivity. Qed.

(** * The claims *)

(** C1, as stated, fails: with [publicAccess: true] in the configuration the
    web bucket of the first version is declared publicly readable, so that
    [AnyPrincipal] is among those who may read its objects and reads are not
    confined to the origin access identity. *)
Lemma C1_counterexample :
  publicAccess sample_dev_props = true ∧
  (∃ b bp pol, buckets_of sample_crm_admin = [(b, bp, pol)] ∧
               AnyPrincipal ∈ object_readers bp pol) ∧
  ¬ reads_only_through_oai sample_crm_admin.
Proof.
  split; [reflexivity|]. split.
  - eexists _, _, _. split; [reflexivity | apply list_elem_of_here].
  - intros Honly.
    apply (oai_statement_only_readers sample_dev_props) in Honly; [done|].
    apply crm_admin_oai_statement_only.
Qed.

(** C1, amended: in both versions the one statement that the stack code adds
    to the resource policy of the web bucket grants [s3:GetObject] on its
    objects to the origin access identity that the stack creates and passes
    to the [S3Origin] of the distribution, and to no other principal; the
    bucket's [publicReadAccess] is the [publicAccess] flag of the
    configuration, and object reads are confined to the identity exactly when
    that flag is false. *)
Theorem C1_reads_through_oai (dotenv_config : DotenvConfigOutput)
    (props : AdminInfraStackProps) :
  (oai_statement_only props (crm_admin_stack dotenv_config props) ∧
   (reads_only_through_oai (crm_admin_stack dotenv_config props) ↔
    publicAccess props = false)) ∧
  (oai_statement_only props (react_deployment_stack props) ∧
   (reads_only_through_oai (react_deployment_stack props) ↔
    publicAccess props = false)).
Proof.
  split.
  - pose proof (crm_admin_oai_statement_only dotenv_config props) as Hst.
    split; [done | by apply oai_statement_only_readers].
  - pose proof (react_deployment_oai_statement_only props) as Hst.
    split; [done | by apply oai_statement_only_readers].
Qed.

(** C2, as stated, fails: the two versions differ beyond naming and the three
    listed differences, and in particular in the policy of the build role. *)
Lemma C2_counterexample :
  ¬ same_modulo_listed sample_crm_admin sample_react_deployment ∧
  role_policy_of sample_crm_admin ≠ role_policy_of sample_react_deployment.
Proof. split; intros Heq; discriminate Heq. Qed.

(** C2, amended: the two versions describe the same deployment up to cosmetic
    naming, the three listed differences (build image, environment variables
    of the build project, reuse of an existing artifact bucket) and two
    further ones: the first version pins a [nodejs] runtime version in the
    install phase, and its build role carries one more statement, the one
    allowing [cloudfront:CreateInvalidation]; the artifact declaration of the
    build spec is left out of the comparison. *)
Theorem C2_versions_compared (env : DotenvParseOutput)
    (props : AdminInfraStackProps) :
  let s1 := crm_admin_stack (settings_loaded env) props in
  let s2 := react_deployment_stack props in
  modulo_listed_and_further s1 = modulo_listed_and_further s2 ∧
  (∃ l pr1 rpol1 pr2 rpol2 d,
     projects_of s1 = [(l, pr1, rpol1)] ∧ projects_of s2 = [(l, pr2, rpol2)] ∧
     buildImage (environment pr1) = AMAZON_LINUX_2_5 ∧
     buildImage (environment pr2) = STANDARD_5_0 ∧
     environmentVariables (environment pr1) = Some (convertEnvVariables env) ∧
     environmentVariables (environment pr2) = None ∧
     jpath ["phases"; "install"; "runtime-versions"] (buildSpec pr1) =
       Some (JObj [("nodejs", jstr "latest")]) ∧
     jpath ["phases"; "install"; "runtime-versions"] (buildSpec pr2) = None ∧
     rpol1 = {| actions := ["cloudfront:CreateInvalidation"];
                resources := [distribution_arn d];
                principals := [] |} :: rpol2) ∧
  (∃ p1 pp1 deps1 p2 pp2 deps2 ib,
     pipelines_of s1 = [(p1, pp1, deps1)] ∧ pipelines_of s2 = [(p2, pp2, deps2)] ∧
     artifactBucket pp1 = None ∧ artifactBucket pp2 = Some ib ∧
     nodes s2 !! ib =
       Some (NImportedBucket "pipeline-existing-artifact-bucket"
                             (pipelineBucket props))).
Proof.
  intros s1 s2. split; [reflexivity|]. split.
  - eexists _, _, _, _, _, _. by repeat (split; [reflexivity|]).
  - eexists _, _, _, _, _, _, _. by repeat (split; [reflexivity|]).
Qed.
(** C3: in both versions, whether or not the constructor gets past the
    settings file, the one distribution of the stack has, for each of the
    statuses 404 and 403, an error response whose page is the root document
    [/index.html]. *)
Theorem C3_errors_rewritten_to_root (dotenv_config : DotenvConfigOutput)
    (props : AdminInfraStackProps) :
  rewrites_to_root (crm_admin_stack dotenv_config props) ∧
  rewrites_to_root (react_deployment_stack props).
Proof.
  assert (Hpages : ∀ ttl1 ttl2 (status : N), status ∈ [404%N; 403%N] →
    ∃ er, er ∈ [ {| httpStatus := 404; responseHttpStatus := 404;
                    responsePagePath := "/index.html"; ttl := ttl1 |};
                 {| httpStatus := 403; responseHttpStatus := 500;
                    responsePagePath := "/index.html"; ttl := ttl2 |} ] ∧
          httpStatus er = status ∧ responsePagePath er = "/index.html").
  { intros ttl1 ttl2 status Hstatus.
    apply elem_of_cons in Hstatus as [->|Hstatus].
    - eexists. split; [apply list_elem_of_here | done].
    - apply list_elem_of_singleton in Hstatus as ->.
      eexists. split; [apply list_elem_of_further, list_elem_of_here | done]. }
  split.
  - destruct dotenv_config as [[e|] [env|]];
      (eexists _, _; split; [reflexivity | split; [reflexivity | apply Hpages]]).
  - eexists _, _. split; [reflexivity | split; [reflexivity | apply Hpages]].
Qed.

(** C4, as stated, fails: the settings file is missing, [dotenv] reports the
    error, and yet the entry point synthesizes, because no configuration is
    to be deployed and the file is never read. *)
Lemma C4_counterexample :
  settings_unavailable settings_missing ∧
  main unique_ids settings_missing sample_dev_disabled sample_prod =
    Synthesized empty_app.
Proof. split; [left; by eexists | reflexivity]. Qed.

(** C4, amended: [loadEnvFile] throws exactly when [dotenv] reports an error
    for the settings file or yields no parsed map (the reported error in the
    first case, a fixed one in the second) and otherwise returns the converted
    map, whatever the file held; when it throws, the constructor of the first
    version throws the same error before any build project or pipeline
    exists, and the entry point, as soon as one configuration is to be
    deployed, ends with an uncaught error instead of synthesizing; with no
    configuration to deploy the settings file is never read and the empty app
    is synthesized. *)
Theorem C4_settings_failure_aborts (super_rejects : SuperCheck)
    (dotenv_config : DotenvConfigOutput) :
  ((∃ e, loadEnvFile dotenv_config = inl e) ↔
   settings_unavailable dotenv_config) ∧
  (∀ e, error dotenv_config = Some e → loadEnvFile dotenv_config = inl e) ∧
  (error dotenv_config = None → parsed dotenv_config = None →
   loadEnvFile dotenv_config =
   inl (JsError "Failed to load environment variables from .env file")) ∧
  (∀ env, error dotenv_config = None → parsed dotenv_config = Some env →
   loadEnvFile dotenv_config = inr (convertEnvVariables env)) ∧
  (∀ e props, loadEnvFile dotenv_config = inl e →
   ∃ st, CrmAdmin.constructor dotenv_config props empty_stack = Throw e st ∧
         projects_of st = [] ∧ pipelines_of st = []) ∧
  (∀ devProps prodProps, settings_unavailable dotenv_config →
   isDeploy devProps || isDeploy prodProps = true →
   ∃ e, main super_rejects dotenv_config devProps prodProps = Uncaught e) ∧
  (∀ devProps prodProps,
   isDeploy devProps || isDeploy prodProps = false →
   main super_rejects dotenv_config devProps prodProps = Synthesized empty_app).
Proof.
  split; [apply loadEnvFile_throws_iff|].
  split; [|split; [|split; [|split; [|split]]]].
  - unfold loadEnvFile. by intros e ->.
  - unfold loadEnvFile. by intros -> ->.
  - unfold loadEnvFile. by intros env -> ->.
  - intros e props Hload.
    destruct (crm_admin_throws dotenv_config props e Hload) as (st & ? & _ & ? & ?).
    by exists st.
  - intros dev prod Hun Hsome.
    apply loadEnvFile_throws_iff in Hun as [e Hload].
    destruct (List.filter isDeploy [dev; prod]) as [|first rest] eqn:Hdep.
    { simpl in Hdep. by destruct (isDeploy dev), (isDeploy prod). }
    destruct (forEach_deploy_loader_throws super_rejects dotenv_config e
                [dev; prod] empty_app first rest Hload Hdep)
      as (e' & app' & Hrun & _).
    exists e'. unfold main. by rewrite Hrun.
  - intros dev prod Hnone. unfold main.
    rewrite forEach_deploy_none; [done|].
    simpl. by destruct (isDeploy dev), (isDeploy prod).
Qed.

(** C5: in both versions the pipeline has exactly the stages Source, Build and
    Deploy, in this order, with one action each; the input of the build action
    is the output artifact of the source action, its only output is the input
    of the deploy action, a different artifact, and the deploy action targets
    the web bucket. *)
Theorem C5_pipeline_stages_wired (env : DotenvParseOutput)
    (props : AdminInfraStackProps) :
  three_stages_wired (crm_admin_stack (settings_loaded env) props) ∧
  three_stages_wired (react_deployment_stack props).
Proof.
  split; eexists _, _, _, _, _, _, _, _, _, _, _, _;
    (split; [reflexivity|]); (split; [reflexivity|]); (split; [reflexivity|]);
    (split; [reflexivity|]); simpl; repeat split; lia.
Qed.

(** C6: in both versions the origin of the distribution is the web bucket, the
    pipeline declares its dependency on exactly the bucket and the
    distribution, and every reference of the description points at a construct
    of the stack. *)
Theorem C6_dependencies_consistent (env : DotenvParseOutput)
    (props : AdminInfraStackProps) :
  (dependencies_declared (crm_admin_stack (settings_loaded env) props) ∧
   references_closed (crm_admin_stack (settings_loaded env) props) = true) ∧
  (dependencies_declared (react_deployment_stack props) ∧
   references_closed (react_deployment_stack props) = true).
Proof.
  split; (split; [|reflexivity]); eexists _, _, _, _, _, _, _, _;
    (split; [reflexivity|]); (split; [reflexivity|]); (split; [reflexivity|]);
    (split; [reflexivity|]); simpl;
    (split; [apply list_elem_of_here|]);
    (split; [apply list_elem_of_further, list_elem_of_here | reflexivity]).
Qed.

(** C7: the converted map has exactly the keys of the parsed map and holds,
    under each key, the parsed value unchanged; that map is what the build
    project of the first version receives as its environment variables. *)
Theorem C7_settings_round_trip (env : DotenvParseOutput) :
  dom (convertEnvVariables env) = dom env ∧
  (∀ k, value <$> convertEnvVariables env !! k = env !! k) ∧
  (∀ props, ∃ l pr rpol,
     projects_of (crm_admin_stack (settings_loaded env) props) = [(l, pr, rpol)] ∧
     environmentVariables (environment pr) = Some (convertEnvVariables env)).
Proof.
  split; [|split].
  - rewrite convertEnvVariables_fmap. apply dom_fmap_L.
  - intros k. rewrite convertEnvVariables_lookup.
    by destruct (env !! k).
  - intros props. by eexists _, _, _.
Qed.

(** C8, as stated, fails: the settings file is missing and two configurations
    are to be deployed; the constructor throws for the first, so that the
    second, whose [isDeploy] flag is true, never gets a stack, and nothing is
    synthesized. *)
Lemma C8_counterexample :
  isDeploy sample_prod_enabled = true ∧
  ¬ instantiated unique_ids settings_missing
      [sample_dev; sample_prod_enabled] sample_prod_enabled ∧
  main unique_ids settings_missing sample_dev sample_prod_enabled =
    Uncaught (JsError "ENOENT: no such file or directory").
Proof.
  split; [reflexivity|]. split; [|reflexivity].
  unfold instantiated.
  assert (stack_id <$> app_stacks (final_state
            (forEach (deploy_if_enabled unique_ids settings_missing)
                     [sample_dev; sample_prod_enabled] empty_app))
          = ["CrmAdminDev"]) as -> by reflexivity.
  by intros [=]%list_elem_of_singleton.
Qed.

(** C8, amended: the entry point calls [new AdminInfraStack] for a
    configuration only when its [isDeploy] flag is true: for a configuration
    without the flag the callback leaves the app as it was, and when it
    returns for a configuration with the flag it has added exactly the stack
    of that configuration; when the callback throws for the first
    configuration the second is never reached and nothing is synthesized;
    whenever the app is synthesized it holds one stack per configuration
    with the flag set, in the order of the list, and none for a configuration
    without it. *)
Theorem C8_stack_iff_isDeploy (super_rejects : SuperCheck)
    (dotenv_config : DotenvConfigOutput) (devProps prodProps : EnvConfig) :
  (∀ envConfig app, isDeploy envConfig = false →
     deploy_if_enabled super_rejects dotenv_config envConfig app = Ok tt app) ∧
  (∀ envConfig app, isDeploy envConfig = true →
     deploy_if_enabled super_rejects dotenv_config envConfig app =
     new_AdminInfraStack super_rejects dotenv_config (stackName envConfig)
       (with_description envConfig) app) ∧
  (∀ envConfig app app', isDeploy envConfig = true →
     deploy_if_enabled super_rejects dotenv_config envConfig app = Ok tt app' →
     app_stacks app' = app_stacks app ++ [stack_for dotenv_config envConfig]) ∧
  (∀ e app',
     deploy_if_enabled super_rejects dotenv_config devProps empty_app =
       Throw e app' →
     forEach (deploy_if_enabled super_rejects dotenv_config)
             [devProps; prodProps] empty_app = Throw e app' ∧
     main super_rejects dotenv_config devProps prodProps = Uncaught e) ∧
  (∀ assembly,
     main super_rejects dotenv_config devProps prodProps = Synthesized assembly →
     stack_id <$> app_stacks assembly =
     stackName <$> List.filter isDeploy [devProps; prodProps]).
Proof.
  split; [|split; [|split; [|split]]].
  - intros envConfig app Hc. unfold deploy_if_enabled. by rewrite Hc.
  - intros envConfig app Hc. unfold deploy_if_enabled. by rewrite Hc.
  - intros envConfig app app' Hc Hrun.
    pose proof (forEach_deploy_Ok super_rejects dotenv_config [envConfig] app app')
      as Hone.
    simpl in Hone. rewrite Hc in Hone. simpl in Hone.
    apply Hone. unfold mbind, M_bind. by rewrite Hrun.
  - intros e app' Hthrow. unfold main. simpl.
    unfold mbind, M_bind. by rewrite Hthrow.
  - intros assembly. unfold main.
    destruct (forEach _ _ _) as [[] app'|e app'] eqn:Hrun; [|done].
    intros [= <-]. apply forEach_deploy_Ok in Hrun as [-> _]. simpl.
    rewrite <- list_fmap_compose. by apply list_fmap_ext.
Qed.

(** C9: in the first version exactly one statement of the build role allows
    [cloudfront:CreateInvalidation], it allows nothing else and its only
    resource is the ARN of the distribution of the stack; in the second version
    no statement of the build role allows it, although the post-build commands
    issue an invalidation of the distribution. *)
Theorem C9_invalidation_permission (env : DotenvParseOutput)
    (props : AdminInfraStackProps) :
  invalidation_granted_on_own_distribution
    (crm_admin_stack (settings_loaded env) props) ∧
  invalidates_without_grant (react_deployment_stack props).
Proof.
  split.
  - eexists _, _, _, _, _, _. by repeat (split; [reflexivity|]).
  - eexists _, _, _, _, _, _. repeat (split; [reflexivity|]).
    apply list_elem_of_further, list_elem_of_here.
Qed.

(** C10: in both versions and for every configuration, the web bucket is
    declared with [RemovalPolicy.DESTROY]. *)
Theorem C10_bucket_removal_policy (dotenv_config : DotenvConfigOutput)
    (props : AdminInfraStackProps) :
  bucket_destroyed_with_stack (crm_admin_stack dotenv_config props) ∧
  bucket_destroyed_with_stack (react_deployment_stack props).
Proof.
  split.
  - destruct dotenv_config as [[e|] [env|]]; by eexists _, _, _.
  - by eexists _, _, _.
Qed.

(** * Further properties *)

(** ** The settings-file loader *)

(** X1: conversion commutes with editing the settings: setting or overriding
    a variable, removing one, and merging two settings maps (the left one
    winning) can be done before or after the conversion. *)
Theorem X1_convert_commutes_with_edits (env env' : DotenvParseOutput)
    (k v : string) :
  convertEnvVariables (<[k := v]> env) =
    <[k := {| value := v |}]> (convertEnvVariables env) ∧
  convertEnvVariables (delete k env) = delete k (convertEnvVariables env) ∧
  convertEnvVariables (env ∪ env') =
    convertEnvVariables env ∪ convertEnvVariables env'.
Proof.
  rewrite !convertEnvVariables_fmap. split; [|split].
  - apply fmap_insert.
  - apply fmap_delete.
  - apply map_fmap_union.
Qed.

(** X2: conversion keeps the number of variables, and yields no variable
    only for settings without any; a settings file without variables is not
    an error, the loader then returns the empty map. *)
Theorem X2_empty_settings (env : DotenvParseOutput) :
  size (convertEnvVariables env) = size env ∧
  (convertEnvVariables env = ∅ ↔ env = ∅) ∧
  loadEnvFile (settings_loaded ∅) = inr ∅.
Proof.
  split; [|split].
  - rewrite convertEnvVariables_fmap. apply map_size_fmap.
  - rewrite convertEnvVariables_fmap. apply fmap_empty_iff.
  - reflexivity.
Qed.

(** X3: the result of the reduction does not depend on how the keys are
    enumerated: any list that holds exactly the keys of the settings, in any
    order and with repetitions, gives the converted map. *)
Theorem X3_reduce_order_irrelevant (env : DotenvParseOutput)
    (keys : list string) :
  (∀ k, k ∈ keys ↔ is_Some (env !! k)) →
  convertEnvVariables_over keys env = convertEnvVariables env.
Proof.
  intros Hkeys. apply map_eq. intros k.
  rewrite convertEnvVariables_lookup.
  by apply convertEnvVariables_over_lookup.
Qed.

Lemma sample_env_keys k :
  k ∈ ["VITE_STAGE"; "VITE_API_URL"; "VITE_STAGE"] ↔ is_Some (sample_env !! k).
Proof.
  unfold sample_env. rewrite !elem_of_cons, elem_of_nil. split.
  - intros [->|[->|[->|[]]]]; by eexists.
  - intros [v Hv].
    destruct (decide (k = "VITE_API_URL")) as [->|Hne1]; [auto|].
    rewrite lookup_insert_ne in Hv by done.
    destruct (decide (k = "VITE_STAGE")) as [->|Hne2]; [auto|].
    by rewrite lookup_insert_ne, lookup_empty in Hv.
Defined.

Lemma X3_witness :
  convertEnvVariables_over ["VITE_STAGE"; "VITE_API_URL"; "VITE_STAGE"] sample_env =
  convertEnvVariables sample_env.
Proof. apply (X3_reduce_order_irrelevant sample_env), sample_env_keys. Defined.

(** ** The entry point *)

(** X4: with no configuration to deploy the entry point synthesizes the empty
    app, whatever the settings file and the framework; and whenever it
    synthesizes, the app holds exactly, in the order of the list, one stack
    per configuration to deploy, under its [stackName], with the description
    [CRM Admin Infra Stack for <environmentType>] and built from that
    configuration alone, and the settings were loaded if there is such a
    configuration. *)
Theorem X4_main_outcome (super_rejects : SuperCheck)
    (dotenv_config : DotenvConfigOutput) (devProps prodProps : EnvConfig) :
  (List.filter isDeploy [devProps; prodProps] = [] →
   main super_rejects dotenv_config devProps prodProps = Synthesized empty_app) ∧
  (∀ assembly,
     main super_rejects dotenv_config devProps prodProps = Synthesized assembly →
     assembly =
       {| app_stacks :=
            stack_for dotenv_config <$>
            List.filter isDeploy [devProps; prodProps] |} ∧
     (List.filter isDeploy [devProps; prodProps] ≠ [] →
      ∃ vars, loadEnvFile dotenv_config = inr vars)).
Proof.
  split.
  - intros Hnone. unfold main. by rewrite forEach_deploy_none.
  - intros [stacks]. unfold main.
    destruct (forEach _ _ _) as [[] app'|e app'] eqn:Hrun; [|done].
    intros [= ->]. apply forEach_deploy_Ok in Hrun as [Hstacks Hload].
    simpl in Hstacks. split; [by rewrite Hstacks | done].
Qed.

(** X5: when the loader throws, the stack that the constructor leaves behind
    holds the first three constructs of a complete stack, the web bucket with
    its policy, the origin access identity and the distribution, and nothing
    else; and the callback throws on the first configuration to deploy: at
    most that configuration has a stack in the app, and the configurations
    after it are never reached. *)
Theorem X5_throw_stops_at_first (super_rejects : SuperCheck)
    (dotenv_config : DotenvConfigOutput) (e : Error)
    (envConfigs : list EnvConfig) (first : EnvConfig) (rest : list EnvConfig) :
  loadEnvFile dotenv_config = inl e →
  List.filter isDeploy envConfigs = first :: rest →
  (∀ props, ∃ bp pol dp,
     nodes (crm_admin_stack dotenv_config props) =
       [NBucket (bucketName props) bp pol;
        NOriginAccessIdentity "OAI";
        NDistribution "crm-admin-deployment-distribution" dp] ∧
     nodes (crm_admin_stack dotenv_config props) =
       take 3 (nodes (crm_admin_stack (settings_loaded ∅) props))) ∧
  ∃ e' app',
    forEach (deploy_if_enabled super_rejects dotenv_config) envConfigs
            empty_app = Throw e' app' ∧
    (app_stacks app' = [] ∨ app_stacks app' = [stack_for dotenv_config first]).
Proof.
  intros Hload Hdep. split.
  - intros props.
    destruct dotenv_config as [[e'|] [env|]]; try discriminate Hload;
      by eexists _, _, _.
  - apply (forEach_deploy_loader_throws super_rejects dotenv_config e
             envConfigs empty_app first rest Hload Hdep).
Qed.

Lemma X5_witness :
  (∀ props, ∃ bp pol dp,
     nodes (crm_admin_stack settings_missing props) =
       [NBucket (bucketName props) bp pol;
        NOriginAccessIdentity "OAI";
        NDistribution "crm-admin-deployment-distribution" dp] ∧
     nodes (crm_admin_stack settings_missing props) =
       take 3 (nodes (crm_admin_stack (settings_loaded ∅) props))) ∧
  ∃ e' app',
    forEach (deploy_if_enabled unique_ids settings_missing)
            [sample_dev; sample_prod_enabled] empty_app = Throw e' app' ∧
    (app_stacks app' = [] ∨
     app_stacks app' = [stack_for settings_missing sample_dev]).
Proof.
  apply (X5_throw_stops_at_first unique_ids settings_missing
           (JsError "ENOENT: no such file or directory")
           [sample_dev; sample_prod_enabled] sample_dev [sample_prod_enabled]);
    reflexivity.
Defined.

(** X6: a synthesized app never holds a stack that is only partly built:
    each of its stacks has its bucket, distribution, build project, pipeline
    and two outputs, and all its references point into the stack itself. *)
Theorem X6_synthesized_stacks_complete (super_rejects : SuperCheck)
    (dotenv_config : DotenvConfigOutput)
    (devProps prodProps : EnvConfig) (assembly : AppSt) :
  main super_rejects dotenv_config devProps prodProps = Synthesized assembly →
  Forall (λ s, let st := stack_constructs s in
               length (buckets_of st) = 1 ∧
               length (distributions_of st) = 1 ∧
               length (projects_of st) = 1 ∧
               length (pipelines_of st) = 1 ∧
               length (outputs_of st) = 2 ∧
               references_closed st = true)
         (app_stacks assembly).
Proof.
  unfold main.
  destruct (forEach _ _ _) as [[] app'|e app'] eqn:Hrun; [|done].
  intros [= <-]. apply forEach_deploy_Ok in Hrun as [-> Hload].
  destruct (List.filter isDeploy [devProps; prodProps]) as [|c cs];
    [constructor|].
  destruct Hload as [vars Hload]; [done|].
  change (app_stacks empty_app) with (@nil StackNode). rewrite app_nil_l.
  destruct dotenv_config as [[e|] [env|]]; try discriminate Hload.
  apply Forall_fmap, Forall_forall. intros c' _. by repeat split.
Qed.

Lemma X6_witness :
  Forall (λ s, let st := stack_constructs s in
               length (buckets_of st) = 1 ∧
               length (distributions_of st) = 1 ∧
               length (projects_of st) = 1 ∧
               length (pipelines_of st) = 1 ∧
               length (outputs_of st) = 2 ∧
               references_closed st = true)
         [stack_for (settings_loaded sample_env) sample_dev].
Proof.
  apply (X6_synthesized_stacks_complete unique_ids (settings_loaded sample_env)
           sample_dev sample_prod
           {| app_stacks := [stack_for (settings_loaded sample_env) sample_dev] |}).
  reflexivity.
Defined.

(** ** The description of a stack *)

(** X7: creating a stack of the first version never reads [environmentType]
    or [pipelineBucket]: with other values in them [new AdminInfraStack] does
    the same.  The [description] is handed to [super] and recorded with the
    stack; the body after [super] does not read it.  The body of the second
    version reads [pipelineBucket] besides: it does the same exactly when
    that field is unchanged. *)
Theorem X7_fields_never_read (super_rejects : SuperCheck)
    (dotenv_config : DotenvConfigOutput) (id : string) (app : AppSt)
    (d : option string) (envType pipeBucket : string)
    (props : AdminInfraStackProps) :
  new_AdminInfraStack super_rejects dotenv_config id
    (set_unread (description props) envType pipeBucket props) app =
  new_AdminInfraStack super_rejects dotenv_config id props app ∧
  stack_description <$> app_stacks (final_state
    (new_AdminInfraStack (λ _ _ _, None) dotenv_config id
       (set_unread d envType pipeBucket props) empty_app)) = [d] ∧
  CrmAdmin.constructor dotenv_config (set_unread d envType pipeBucket props)
    empty_stack =
  CrmAdmin.constructor dotenv_config props empty_stack ∧
  (ReactDeployment.constructor (set_unread d envType pipeBucket props)
     empty_stack =
   ReactDeployment.constructor props empty_stack ↔
   pipeBucket = pipelineBucket props).
Proof.
  assert (Hbody : ∀ d', CrmAdmin.constructor dotenv_config
                          (set_unread d' envType pipeBucket props) empty_stack =
                        CrmAdmin.constructor dotenv_config props empty_stack).
  { intros d'. by destruct dotenv_config as [[e|] [env|]]. }
  split; [|split; [|split; [apply Hbody|]]].
  - unfold new_AdminInfraStack. by rewrite Hbody.
  - unfold new_AdminInfraStack. rewrite Hbody.
    by destruct (CrmAdmin.constructor dotenv_config props empty_stack).
  - split.
    + intros Hrun.
      apply (f_equal (λ o, nodes (final_state o) !! 4)) in Hrun.
      by injection Hrun.
    + by intros ->.
Qed.

(** X8: both versions emit exactly two outputs, first the domain name of the
    stack's own distribution under the id [cloudfront-web-url], then the
    website URL of the stack's own web bucket. *)
Theorem X8_outputs (env : DotenvParseOutput) (props : AdminInfraStackProps) :
  let emits st :=
    ∃ b bp pol d dp id,
      buckets_of st = [(b, bp, pol)] ∧ distributions_of st = [(d, dp)] ∧
      (λ o, (o.1, out_value o.2)) <$> outputs_of st =
        [("cloudfront-web-url", [Attr d distributionDomainName]);
         (id, [Attr b bucketWebsiteUrl])] in
  emits (crm_admin_stack (settings_loaded env) props) ∧
  emits (react_deployment_stack props).
Proof. split; by eexists _, _, _, _, _, _. Qed.

(** X9: in both versions the post-build phase runs two commands, the echo of
    [creating cloudfront invalidation] and then the invalidation of every
    path of the stack's own distribution; in the first version the statement
    of the build role that allows the invalidation names that same
    distribution. *)
Theorem X9_invalidation_targets_own_distribution (env : DotenvParseOutput)
    (props : AdminInfraStackProps) :
  (∃ d dp l pr rpol stmt,
     distributions_of (crm_admin_stack (settings_loaded env) props) = [(d, dp)] ∧
     projects_of (crm_admin_stack (settings_loaded env) props) = [(l, pr, rpol)] ∧
     phase_commands "post_build" (buildSpec pr) =
       Some (JArr [jstr (echo "creating cloudfront invalidation");
                   invalidation_command d]) ∧
     stmt ∈ rpol ∧
     allows "cloudfront:CreateInvalidation" stmt = true ∧
     resources stmt = [distribution_arn d]) ∧
  (∃ d dp l pr rpol,
     distributions_of (react_deployment_stack props) = [(d, dp)] ∧
     projects_of (react_deployment_stack props) = [(l, pr, rpol)] ∧
     phase_commands "post_build" (buildSpec pr) =
       Some (JArr [jstr (echo "creating cloudfront invalidation");
                   invalidation_command d])).
Proof.
  split.
  - eexists _, _, _, _, _, _. repeat (split; [reflexivity|]).
    split; [apply list_elem_of_here | by split].
  - eexists _, _, _, _, _. by repeat (split; [reflexivity|]).
Qed.

(** X10: the build spec of the first version has the phases install, build
    and post_build and declares its artifacts (everything under [dist]) at top
    level; the build spec of the second version has no [artifacts] entry at
    all: the same declaration sits among its phases, under the key
    [arfifacts]. *)
Theorem X10_artifact_declaration (env : DotenvParseOutput)
    (props : AdminInfraStackProps) :
  (∃ spec phases,
     build_spec_of (crm_admin_stack (settings_loaded env) props) = [spec] ∧
     jkeys spec = ["version"; "phases"; "artifacts"] ∧
     jget "phases" spec = Some phases ∧
     jkeys phases = ["install"; "build"; "post_build"] ∧
     jget "artifacts" spec = Some artifacts_declaration) ∧
  (∃ spec phases,
     build_spec_of (react_deployment_stack props) = [spec] ∧
     jkeys spec = ["version"; "phases"] ∧
     jget "phases" spec = Some phases ∧
     jkeys phases = ["install"; "build"; "post_build"; "arfifacts"] ∧
     jget "artifacts" spec = None ∧
     jget "arfifacts" phases = Some artifacts_declaration).
Proof. split; eexists _, _; by repeat (split; [reflexivity|]). Qed.

(** X11: in both versions the pipeline carries the configured name and its
    source action fetches the configured branch of the configured repository,
    with the access token taken from Secrets Manager under the configured
    name. *)
Theorem X11_source_from_configuration (env : DotenvParseOutput)
    (props : AdminInfraStackProps) :
  let fetches st :=
    ∃ p pp deps src rest,
      pipelines_of st = [(p, pp, deps)] ∧
      pl_pipelineName pp = pipelineName props ∧
      stages pp =
        {| stageName := "Source"; stage_actions := [SourceAction src] |} :: rest ∧
      owner src = githubRepoOwner props ∧
      repo src = githubRepoName props ∧
      gh_branch src = branch props ∧
      oauthToken src = secretsManager (githubAccessToken props) in
  fetches (crm_admin_stack (settings_loaded env) props) ∧
  fetches (react_deployment_stack props).
Proof. split; eexists _, _, _, _, _; by repeat (split; [reflexivity|]). Qed.

(** X12: no statement that the stack code writes, on the bucket or on the
    build role, is open-ended: each of its resources names a construct of the
    stack through a deploy-time attribute (never a bare wildcard), and none
    of its principals is [AnyPrincipal]. *)
Theorem X12_statements_scoped (env : DotenvParseOutput)
    (props : AdminInfraStackProps) :
  let scoped st :=
    policies_of st ≠ [] ∧
    Forall (λ stmt, resources stmt ≠ [] ∧
                    Forall (names_construct st) (resources stmt) ∧
                    AnyPrincipal ∉ principals stmt)
           (policies_of st) in
  scoped (crm_admin_stack (settings_loaded env) props) ∧
  scoped (react_deployment_stack props).
Proof.
  split; (split; [done|]); apply Forall_forall; intros stmt Hin;
    cbv -[convertEnvVariables] in Hin;
    repeat (apply elem_of_cons in Hin as [->|Hin]);
    try (by apply elem_of_nil in Hin);
    simpl; (split; [done|]);
    (split;
      [ apply Forall_cons_2; [|apply Forall_nil_2];
        eexists _, _;
        (split;
          [ repeat first [apply list_elem_of_here | apply list_elem_of_further]
          | by eexists ])
      | first [ apply not_elem_of_nil
              | apply not_elem_of_cons; split; [done | apply not_elem_of_nil] ] ]).
Qed.

(** X13: the distribution is the same whatever the configuration and in both
    versions: it redirects viewers to HTTPS, serves [index.html] as root
    object even when the configuration names another index file, and answers
    a 404 of the origin with status 404 and a 403 with status 500, each cached
    for 300 seconds. *)
Theorem X13_distribution_fixed (dotenv_config dotenv_config' : DotenvConfigOutput)
    (props props' : AdminInfraStackProps) :
  distributions_of (crm_admin_stack dotenv_config props) =
    distributions_of (crm_admin_stack dotenv_config' props') ∧
  distributions_of (react_deployment_stack props) =
    distributions_of (crm_admin_stack dotenv_config' props') ∧
  ∃ d dp,
    distributions_of (crm_admin_stack dotenv_config props) = [(d, dp)] ∧
    viewerProtocolPolicy (defaultBehavior dp) = REDIRECT_TO_HTTPS ∧
    defaultRootObject dp = "index.html" ∧
    priceClass dp = PRICE_CLASS_100 ∧
    (λ er, (httpStatus er, responseHttpStatus er, ttl er)) <$> errorResponses dp =
      [(404%N, 404%N, seconds 300); (403%N, 500%N, seconds 300)].
Proof.
  destruct dotenv_config as [[e|] [env|]], dotenv_config' as [[e'|] [env'|]];
    (split; [reflexivity|]); (split; [reflexivity|]);
    eexists _, _; by repeat (split; [reflexivity|]).
Qed.

(** X14: both versions declare the same web bucket: a website whose index and
    error documents are the configured ones, encrypted with S3-managed keys,
    with public ACLs blocked and full control for the bucket owner. *)
Theorem X14_web_bucket_hosting (dotenv_config : DotenvConfigOutput)
    (props : AdminInfraStackProps) :
  ∃ b bp pol,
    buckets_of (crm_admin_stack dotenv_config props) = [(b, bp, pol)] ∧
    buckets_of (react_deployment_stack props) = [(b, bp, pol)] ∧
    websiteIndexDocument bp = indexFile props ∧
    websiteErrorDocument bp = errorFile props ∧
    encryption bp = S3_MANAGED ∧
    blockPublicAccess bp = BLOCK_ACLS ∧
    accessControl bp = BUCKET_OWNER_FULL_CONTROL.
Proof.
  destruct dotenv_config as [[e|] [env|]];
    eexists _, _, _; by repeat (split; [reflexivity|]).
Qed.

(** X15: in both versions the build role may start builds and read build
    results of the build project itself, and of no other project. *)
Theorem X15_build_role_on_own_project (env : DotenvParseOutput)
    (props : AdminInfraStackProps) :
  let own st :=
    ∃ l pr rpol,
      projects_of st = [(l, pr, rpol)] ∧
      statements_allowing "codebuild:StartBuild" rpol =
        [{| actions := ["codebuild:StartBuild"; "codebuild:BatchGetBuilds"];
            resources := [[Attr l projectArn]];
            principals := [] |}] ∧
      statements_allowing "codebuild:BatchGetBuilds" rpol =
        statements_allowing "codebuild:StartBuild" rpol in
  own (crm_admin_stack (settings_loaded env) props) ∧
  own (react_deployment_stack props).
Proof. split; eexists _, _, _; by repeat (split; [reflexivity|]). Qed.
